(** * transform_jinja2: the two template-rendering scripts of vscode-pddl

    A shallow embedding of [scripts/transform_jinja2.py] (the script with the
    custom filters, called the main script below) and of
    [client/scripts/transform_jinja2.py] (the variant without filters).

    Layout:
    - [Py]          : the Python values, exceptions and built-ins the scripts
                      call;
    - [Host]        : what the interpreter and the platform decide (attribute
                      tables, conversion of boolean parameters, [sys.version]);
    - [Filters]     : [tif_filter], [map_filter], [sanitize_line_ends];
    - [Engine], [World] : Jinja2 and the surroundings of one invocation;
    - [Process]     : the trace of a run (standard streams, exit);
    - [MainScript], [VariantScript] : the two scripts, statement by statement;
    - [CPython]     : concrete hosts, an engine and worlds to evaluate on;
    - the properties, one block per component. *)

From Stdlib Require Import ZArith List String Ascii Bool Lia DecimalString.
From Stdlib Require Import Floats.
Import ListNotations.

#[local] Set Warnings "-register-all".
#[local] Open Scope string_scope.

(* ------------------------------------------------------------------ *)
(** ** Python values and built-ins *)
(* ------------------------------------------------------------------ *)

Module Py.

(** Exceptions the modelled code can raise.  The payload of [KeyError] is the
    missing key; [ExternalError] stands for what the collaborators raise
    (OSError, UnicodeDecodeError, JSONDecodeError, jinja2's TemplateError,
    RecursionError). *)
Inductive exn : Type :=
| TypeError
| ValueError
| KeyError (key : string)
| IndexError
| ExternalError (name : string).

(** A computation that returns or raises. *)
Inductive result (A : Type) : Type :=
| Ok (a : A)
| Raise (e : exn).
Arguments Ok {A} a.
Arguments Raise {A} e.

Definition rbind {A B} (r : result A) (k : A -> result B) : result B :=
  match r with
  | Ok a => k a
  | Raise e => Raise e
  end.

(** What [json.load] produces, which is also what a template can hand to a
    filter: None, bool, int, float, str, list, dict.  A [str] is a sequence of
    code points below 256, one [ascii] each.  A [dict] keeps insertion order. *)
Inductive value : Type :=
| VNone
| VBool (b : bool)
| VInt (z : Z)
| VFloat (f : float)
| VStr (s : string)
| VList (items : list value)
| VDict (entries : list (string * value)).

Inductive pytype : Type :=
| TNoneType | TBool | TInt | TFloat | TStr | TList | TDict.

Definition type_of (v : value) : pytype :=
  match v with
  | VNone => TNoneType
  | VBool _ => TBool
  | VInt _ => TInt
  | VFloat _ => TFloat
  | VStr _ => TStr
  | VList _ => TList
  | VDict _ => TDict
  end.

(** The decimal digits of an int, a leading minus sign when negative. *)
Definition int_str (z : Z) : string := NilZero.string_of_int (Z.to_int z).

(** The interpreter's limit on the conversion of an int to text
    ([sys.get_int_max_str_digits()], 0 for no limit): the number of digits,
    the sign not counted, is above the limit exactly when the magnitude
    reaches [10 ^ limit]. *)
Definition too_many_digits (limit : nat) (z : Z) : bool :=
  (0 <? limit)%nat && (10 ^ Z.of_nat limit <=? Z.abs z)%Z.

(** [str(z)] for an int: ValueError above the limit, the digits otherwise. *)
Definition int_to_str (limit : nat) (z : Z) : result string :=
  if too_many_digits limit z then Raise ValueError else Ok (int_str z).

(** *** [repr] of a str *)

Definition hex_digit (n : nat) : ascii :=
  match n with
  | 0 => "0" | 1 => "1" | 2 => "2" | 3 => "3" | 4 => "4" | 5 => "5"
  | 6 => "6" | 7 => "7" | 8 => "8" | 9 => "9" | 10 => "a" | 11 => "b"
  | 12 => "c" | 13 => "d" | 14 => "e" | _ => "f"
  end%char.

Definition backslash : ascii := ascii_of_nat 92.
Definition apostrophe : ascii := ascii_of_nat 39.
Definition double_quote : ascii := ascii_of_nat 34.

Definition contains (c : ascii) (s : string) : bool :=
  existsb (Ascii.eqb c) (list_ascii_of_string s).

(** The code points below 256 that [str.isprintable] rejects. *)
Definition printable (c : ascii) : bool :=
  let n := nat_of_ascii c in
  ((32 <=? n) && negb (n =? 127) && negb ((128 <=? n) && (n <=? 160))
   && negb (n =? 173))%nat.

Definition repr_char (quote : ascii) (c : ascii) : string :=
  let n := nat_of_ascii c in
  if Ascii.eqb c backslash || Ascii.eqb c quote then String backslash (String c "")
  else if (n =? 9)%nat then String backslash "t"
  else if (n =? 10)%nat then String backslash "n"
  else if (n =? 13)%nat then String backslash "r"
  else if printable c then String c ""
  else String backslash
         (String "x" (String (hex_digit (n / 16)) (String (hex_digit (n mod 16)) ""))).

(** Single quotes, unless the text has a single quote and no double quote. *)
Definition str_repr (s : string) : string :=
  let quote :=
    if contains apostrophe s && negb (contains double_quote s)
    then double_quote else apostrophe in
  String quote
    (concat "" (map (repr_char quote) (list_ascii_of_string s)) ++ String quote "").

(** *** [repr] of a value, by structure

    [float_repr] is the interpreter's shortest round-trip rendering of a
    float and [max_digits] its limit on int conversion; both are fields of
    the host (see [Host]) and parameters here.  The items of a list and the
    entries of a dict are rendered from left to right, and the first
    exception ends the rendering.  The interpreter's bound on the depth of
    nesting is not part of this function. *)
Section Rendering.

Variable float_repr : float -> string.
Variable max_digits : nat.

Fixpoint py_repr (v : value) : result string :=
  match v with
  | VNone => Ok "None"
  | VBool true => Ok "True"
  | VBool false => Ok "False"
  | VInt z => int_to_str max_digits z
  | VFloat f => Ok (float_repr f)
  | VStr s => Ok (str_repr s)
  | VList items =>
      rbind
        ((fix each (l : list value) : result (list string) :=
            match l with
            | [] => Ok []
            | x :: l' =>
                rbind (py_repr x)
                      (fun shown => rbind (each l') (fun rest => Ok (shown :: rest)))
            end) items)
        (fun parts => Ok ("[" ++ concat ", " parts ++ "]"))
  | VDict entries =>
      rbind
        ((fix each (l : list (string * value)) : result (list string) :=
            match l with
            | [] => Ok []
            | (k, x) :: l' =>
                rbind (py_repr x)
                      (fun shown =>
                         rbind (each l')
                               (fun rest => Ok ((str_repr k ++ ": " ++ shown) :: rest)))
            end) entries)
        (fun parts => Ok ("{" ++ concat ", " parts ++ "}"))
  end.

End Rendering.

(** [sep.join(items)]: every item has to be a str. *)
Fixpoint as_strs (items : list value) : result (list string) :=
  match items with
  | [] => Ok []
  | VStr s :: rest => rbind (as_strs rest) (fun l => Ok (s :: l))
  | _ :: _ => Raise TypeError
  end.

Definition str_join (sep : string) (items : list value) : result string :=
  rbind (as_strs items) (fun l => Ok (concat sep l)).

(** [v > 0]: bool and int compare as integers, float by IEEE order (false for
    nan); the other types do not order against an int. *)
Definition gt_zero (v : value) : result bool :=
  match v with
  | VBool b => Ok b
  | VInt z => Ok (0 <? z)%Z
  | VFloat f => Ok (PrimFloat.ltb 0%float f)
  | _ => Raise TypeError
  end.

(** [d[key]] on the entries of a dict. *)
Fixpoint lookup (key : string) (entries : list (string * value)) : option value :=
  match entries with
  | [] => None
  | (k, x) :: rest => if String.eqb k key then Some x else lookup key rest
  end.

(** [v[key]] with a str key: a dict looks the key up, the other types refuse
    a str subscript. *)
Definition getitem (v : value) (key : string) : result value :=
  match v with
  | VDict entries =>
      match lookup key entries with
      | Some x => Ok x
      | None => Raise (KeyError key)
      end
  | _ => Raise TypeError
  end.

(** *** [str.splitlines] *)

(** Line boundaries among the code points below 256: LF, VT, FF, CR, FS, GS,
    RS and NEL. *)
Definition is_line_break (c : ascii) : bool :=
  let n := nat_of_ascii c in
  ((n =? 10) || (n =? 11) || (n =? 12) || (n =? 13)
   || (n =? 28) || (n =? 29) || (n =? 30) || (n =? 133))%nat.

Definition CR : ascii := ascii_of_nat 13.
Definition LF : ascii := ascii_of_nat 10.

(** [line] is the text of the current line so far.  CR LF counts as one
    boundary; a last line without a boundary is kept when it is not empty. *)
Fixpoint splitlines_from (keepends : bool) (line s : string) : list string :=
  match s with
  | EmptyString =>
      match line with
      | EmptyString => []
      | _ => [line]
      end
  | String c rest =>
      if is_line_break c then
        match rest with
        | String c' rest' =>
            if Ascii.eqb c CR && Ascii.eqb c' LF then
              (line ++ if keepends then String c (String c' "") else "")
                :: splitlines_from keepends "" rest'
            else
              (line ++ if keepends then String c "" else "")
                :: splitlines_from keepends "" rest
        | EmptyString =>
            (line ++ if keepends then String c "" else "")
              :: splitlines_from keepends "" rest
        end
      else splitlines_from keepends (line ++ String c "") rest
  end.

Definition splitlines (keepends : bool) (s : string) : list string :=
  splitlines_from keepends "" s.

Definition has_line_break (s : string) : bool :=
  existsb is_line_break (list_ascii_of_string s).

End Py.
Import Py.

Declare Scope result_scope.
Delimit Scope result_scope with result.
Notation "x <- r ;; k" := (rbind r (fun x => k))
  (at level 61, r at next level, right associativity) : result_scope.

(* ------------------------------------------------------------------ *)
(** ** The host: interpreter and platform *)
(* ------------------------------------------------------------------ *)

(** How a built-in written in C converts the argument of a boolean parameter
    such as [keepends] of [str.splitlines].  [IntegerOnly]: the argument has
    to be an int (CPython up to 3.11; a str raises TypeError).  [AnyObject]:
    the truth value of any object is taken (later CPython). *)
Inductive bool_converter : Type :=
| IntegerOnly
| AnyObject.

Record Host : Type := {
  (** [repr] of a float *)
  float_repr : float -> string;
  (** [sys.get_int_max_str_digits()]: the most digits an int may have when
      it is converted to text, 0 for no limit *)
  int_max_str_digits : nat;
  (** [repr] of a list or a dict, which also depends on how deep the
      interpreter lets the rendering nest (RecursionError) *)
  container_repr : value -> result string;
  (** the names [dir] lists for a built-in type: what [hasattr] answers *)
  type_attributes : pytype -> list string;
  bool_parameter : bool_converter;
  (** [sys.version] *)
  sys_version : string;
  (** [os.path.basename] *)
  os_path_basename : string -> string
}.

Definition hasattr (h : Host) (v : value) (name : string) : bool :=
  existsb (String.eqb name) (type_attributes h (type_of v)).

(** [str(v)], which is what a [{}] field of [str.format] inserts: a str as
    it is, an int in decimal unless it has too many digits (ValueError), a
    list or a dict as the host renders it. *)
Definition py_str (h : Host) (v : value) : result string :=
  match v with
  | VNone => Ok "None"
  | VBool true => Ok "True"
  | VBool false => Ok "False"
  | VInt z => int_to_str (int_max_str_digits h) z
  | VFloat f => Ok (float_repr h f)
  | VStr s => Ok s
  | VList _ | VDict _ => container_repr h v
  end.

(** A str passed where a C function expects a boolean. *)
Definition bool_of_str_argument (c : bool_converter) (s : string) : result bool :=
  match c with
  | IntegerOnly => Raise TypeError
  | AnyObject => Ok (negb (String.eqb s ""))
  end.

(* ------------------------------------------------------------------ *)
(** ** The filters of the main script *)
(* ------------------------------------------------------------------ *)

Module Filters.
Section WithHost.

Variable h : Host.
#[local] Open Scope result_scope.

(** [tif_filter(time, value, *function_name)] *)
Definition tif_filter (time value : value) (function_name : list Py.value)
  : result string :=
  name <- str_join " " function_name ;;
  shown <- py_str h value ;;
  let assignment := "(= (" ++ name ++ ") " ++ shown ++ ")" in
  positive <- gt_zero time ;;
  if positive : bool
  then at_time <- py_str h time ;;
       Ok ("(at " ++ at_time ++ " " ++ assignment ++ ")")
  else Ok assignment.

(** [map_filter(value, attribute_name, default)] *)
Definition map_filter (value : value) (attribute_name : string)
           (default : Py.value) : result Py.value :=
  if hasattr h value attribute_name
  then getitem value attribute_name
  else Ok default.

(** [sanitize_line_ends(value)]: the text is also the argument that lands
    in [keepends]. *)
Definition sanitize_line_ends (value : string) : result string :=
  keepends <- bool_of_str_argument (bool_parameter h) value ;;
  Ok (concat ", " (splitlines keepends value)).

(** *** The filters as the engine calls them: positional arguments *)

Definition callable : Type := list value -> result value.

Definition tif_call : callable := fun args =>
  match args with
  | time :: value :: function_name =>
      s <- tif_filter time value function_name ;; Ok (VStr s)
  | _ => Raise TypeError
  end.

(** [default] is [None] when the third argument is left out; [hasattr]
    refuses a name that is not a str. *)
Definition map_call : callable := fun args =>
  match args with
  | [value; VStr attribute_name] => map_filter value attribute_name VNone
  | [value; VStr attribute_name; default] =>
      map_filter value attribute_name default
  | _ => Raise TypeError
  end.

End WithHost.
End Filters.
Import Filters.

(** Entries a script adds to [template.environment.filters]. *)
Definition registry : Type := list (string * callable).

(* ------------------------------------------------------------------ *)
(** ** Collaborators: the template engine and the world of one run *)
(* ------------------------------------------------------------------ *)

(** Jinja2, as far as the scripts touch it: [Template(text)] compiles, and
    [template.render(data=...)] renders with the filters found in the
    template's environment at that moment. *)
Record Engine : Type := {
  template : Type;
  Template : string -> result template;
  render : template -> registry -> value -> result string
}.

(** What one invocation finds. *)
Record World : Type := {
  (** does [from jinja2 import Template] succeed *)
  jinja2_installed : bool;
  (** [sys.argv[0]] and [sys.argv[1:]] *)
  argv0 : string;
  args : list string;
  (** the lines [sys.stdin.readlines()] returns *)
  stdin : list string;
  (** [io.open(path, mode='r', encoding="utf-8")] followed by [json.load] *)
  load_json : string -> result value;
  (** [str(datetime.datetime.now())] *)
  now : string
}.

(* ------------------------------------------------------------------ *)
(** ** Processes: a trace of what the run does, and how it ends *)
(* ------------------------------------------------------------------ *)

Module Process.

Inductive event : Type :=
| ReadStdin (lines : list string)
| OpenData (path : string)
| Stdout (text : string)
| Stderr (text : string).

Inductive outcome : Type :=
| Completed
| SystemExit (code : Z)
| Uncaught (e : exn).

Inductive flow (A : Type) : Type :=
| Next (a : A)
| Halt (o : outcome).
Arguments Next {A} a.
Arguments Halt {A} o.

Definition proc (A : Type) : Type := (list event * flow A)%type.

Definition ret {A} (a : A) : proc A := ([], Next a).

Definition bind {A B} (p : proc A) (k : A -> proc B) : proc B :=
  match p with
  | (t, Next a) => let '(t', r) := k a in ((t ++ t')%list, r)
  | (t, Halt o) => (t, Halt o)
  end.

(** An exception nobody catches ends the run. *)
Definition lift {A} (r : result A) : proc A :=
  match r with
  | Ok a => ret a
  | Raise e => ([], Halt (Uncaught e))
  end.

(** [exit(code)] *)
Definition exit {A} (code : Z) : proc A := ([], Halt (SystemExit code)).

(** [print(text)] *)
Definition print (text : string) : proc unit :=
  ([Stdout (text ++ String LF "")], Next tt).

Definition run (p : proc unit) : list event * outcome :=
  match p with
  | (t, Next _) => (t, Completed)
  | (t, Halt o) => (t, o)
  end.

(** The status the parent process sees (POSIX keeps the low byte of the
    argument of [exit]; a traceback ends with status 1). *)
Definition exit_status (o : outcome) : Z :=
  match o with
  | Completed => 0
  | SystemExit code => code mod 256
  | Uncaught _ => 1
  end.

Fixpoint stdout_of (t : list event) : string :=
  match t with
  | [] => ""
  | Stdout text :: t' => text ++ stdout_of t'
  | _ :: t' => stdout_of t'
  end.

Fixpoint stderr_of (t : list event) : string :=
  match t with
  | [] => ""
  | Stderr text :: t' => text ++ stderr_of t'
  | _ :: t' => stderr_of t'
  end.

(** Does the event take input (standard input or the data file)? *)
Definition reads_input (ev : event) : bool :=
  match ev with
  | ReadStdin _ | OpenData _ => true
  | _ => false
  end.

End Process.
Import Process.

Declare Scope proc_scope.
Delimit Scope proc_scope with proc.
Notation "x <- p ;; k" := (bind p (fun x => k))
  (at level 61, p at next level, right associativity) : proc_scope.
Notation "p ;; k" := (bind p (fun _ => k))
  (at level 61, right associativity) : proc_scope.

(* ------------------------------------------------------------------ *)
(** ** The scripts *)
(* ------------------------------------------------------------------ *)

(** [args[0]] *)
Definition first_arg (args : list string) : result string :=
  match args with
  | data_path :: _ => Ok data_path
  | [] => Raise IndexError
  end.

(** [scripts/transform_jinja2.py] *)
Module MainScript.
Section Run.

Variables (h : Host) (e : Engine) (w : World).
#[local] Open Scope proc_scope.

Definition eprint (text : string) : proc unit := ([Stderr text], Next tt).

(** [main(args)]; [template_text] is the module's global. *)
Definition main (template_text : string) (args : list string) : proc unit :=
  (if (List.length args <? 1)%nat
   then eprint ("Usage: " ++ os_path_basename h (argv0 w) ++ " <data.json>") ;;
        exit (-1)
   else ret tt) ;;
  data_path <- lift (first_arg args) ;;
  input_data <- bind ([OpenData data_path], Next tt)
                     (fun _ => lift (load_json w data_path)) ;;
  template <- lift (Template e template_text) ;;
  let filters : registry :=
    [("tif", tif_call h); ("mapattr", map_call h)] in
  rendered <- lift (render e template filters input_data) ;;
  print rendered ;;
  print "; This PDDL problem file was generated using Jinja2 template" ;;
  version <- lift (sanitize_line_ends h (sys_version h)) ;;
  print (";    Python: " ++ version) ;;
  print (";    Data: " ++ data_path) ;;
  print (";    Time: " ++ now w).

(** The module body, run as [__main__]. *)
Definition script : proc unit :=
  (if jinja2_installed w then ret tt
   else eprint "Jinja2 is not installed. Run this command in the terminal: python -m pip install jinja2" ;;
        exit (-1)) ;;
  template_text <- ([ReadStdin (stdin w)], Next (concat "" (stdin w))) ;;
  main template_text (args w).

End Run.
End MainScript.

(** [client/scripts/transform_jinja2.py] *)
Module VariantScript.
Section Run.

Variables (h : Host) (e : Engine) (w : World).
#[local] Open Scope proc_scope.

Definition eprint (text : string) : proc unit := ([Stderr text], Next tt).

Definition main (template_text : string) (args : list string) : proc unit :=
  (if (List.length args <? 1)%nat
   then eprint ("Usage: " ++ os_path_basename h (argv0 w) ++ " <data.json>") ;;
        exit (-1)
   else ret tt) ;;
  data_path <- lift (first_arg args) ;;
  input_data <- bind ([OpenData data_path], Next tt)
                     (fun _ => lift (load_json w data_path)) ;;
  template <- lift (Template e template_text) ;;
  rendered <- lift (render e template [] input_data) ;;
  print rendered ;;
  print "; This PDDL problem file was generated using Jinja2 template" ;;
  print (";    Python: " ++ sys_version h) ;;
  print (";    Data: " ++ data_path) ;;
  print (";    Time: " ++ now w).

Definition script : proc unit :=
  (if jinja2_installed w then ret tt
   else eprint "Jinja2 is not installed. Run this command in the terminal: python -m pip install jinja2" ;;
        exit (-1)) ;;
  template_text <- ([ReadStdin (stdin w)], Next (concat "" (stdin w))) ;;
  main template_text (args w).

End Run.
End VariantScript.

(* ------------------------------------------------------------------ *)
(** ** Concrete hosts, an engine and worlds to run the model on *)
(* ------------------------------------------------------------------ *)

Module CPython.

(** The attribute names of the built-in types, as [dir] lists them on
    CPython 3.11: those of [object], then what each type adds.  [bool] has
    the names of [int]. *)
Definition object_attributes : list string :=
  ["__class__"; "__delattr__"; "__dir__"; "__doc__"; "__eq__"; "__format__";
   "__ge__"; "__getattribute__"; "__getstate__"; "__gt__"; "__hash__";
   "__init__"; "__init_subclass__"; "__le__"; "__lt__"; "__ne__"; "__new__";
   "__reduce__"; "__reduce_ex__"; "__repr__"; "__setattr__"; "__sizeof__";
   "__str__"; "__subclasshook__"].

Definition nonetype_attributes : list string :=
  ["__bool__"].

Definition int_attributes : list string :=
  ["__abs__"; "__add__"; "__and__"; "__bool__"; "__ceil__"; "__divmod__";
   "__float__"; "__floor__"; "__floordiv__"; "__getnewargs__"; "__index__";
   "__int__"; "__invert__"; "__lshift__"; "__mod__"; "__mul__"; "__neg__";
   "__or__"; "__pos__"; "__pow__"; "__radd__"; "__rand__"; "__rdivmod__";
   "__rfloordiv__"; "__rlshift__"; "__rmod__"; "__rmul__"; "__ror__";
   "__round__"; "__rpow__"; "__rrshift__"; "__rshift__"; "__rsub__";
   "__rtruediv__"; "__rxor__"; "__sub__"; "__truediv__"; "__trunc__";
   "__xor__"; "as_integer_ratio"; "bit_count"; "bit_length"; "conjugate";
   "denominator"; "from_bytes"; "imag"; "numerator"; "real"; "to_bytes"].

Definition float_attributes : list string :=
  ["__abs__"; "__add__"; "__bool__"; "__ceil__"; "__divmod__"; "__float__";
   "__floor__"; "__floordiv__"; "__getformat__"; "__getnewargs__"; "__int__";
   "__mod__"; "__mul__"; "__neg__"; "__pos__"; "__pow__"; "__radd__";
   "__rdivmod__"; "__rfloordiv__"; "__rmod__"; "__rmul__"; "__round__";
   "__rpow__"; "__rsub__"; "__rtruediv__"; "__sub__"; "__truediv__";
   "__trunc__"; "as_integer_ratio"; "conjugate"; "fromhex"; "hex"; "imag";
   "is_integer"; "real"].

Definition str_attributes : list string :=
  ["__add__"; "__contains__"; "__getitem__"; "__getnewargs__"; "__iter__";
   "__len__"; "__mod__"; "__mul__"; "__rmod__"; "__rmul__"; "capitalize";
   "casefold"; "center"; "count"; "encode"; "endswith"; "expandtabs"; "find";
   "format"; "format_map"; "index"; "isalnum"; "isalpha"; "isascii";
   "isdecimal"; "isdigit"; "isidentifier"; "islower"; "isnumeric";
   "isprintable"; "isspace"; "istitle"; "isupper"; "join"; "ljust"; "lower";
   "lstrip"; "maketrans"; "partition"; "removeprefix"; "removesuffix";
   "replace"; "rfind"; "rindex"; "rjust"; "rpartition"; "rsplit"; "rstrip";
   "split"; "splitlines"; "startswith"; "strip"; "swapcase"; "title";
   "translate"; "upper"; "zfill"].

Definition list_attributes : list string :=
  ["__add__"; "__class_getitem__"; "__contains__"; "__delitem__";
   "__getitem__"; "__iadd__"; "__imul__"; "__iter__"; "__len__"; "__mul__";
   "__reversed__"; "__rmul__"; "__setitem__"; "append"; "clear"; "copy";
   "count"; "extend"; "index"; "insert"; "pop"; "remove"; "reverse"; "sort"].

Definition dict_attributes : list string :=
  ["__class_getitem__"; "__contains__"; "__delitem__"; "__getitem__";
   "__ior__"; "__iter__"; "__len__"; "__or__"; "__reversed__"; "__ror__";
   "__setitem__"; "clear"; "copy"; "fromkeys"; "get"; "items"; "keys"; "pop";
   "popitem"; "setdefault"; "update"; "values"].

Definition attributes (t : pytype) : list string :=
  (object_attributes ++
   match t with
   | TNoneType => nonetype_attributes
   | TBool | TInt => int_attributes
   | TFloat => float_attributes
   | TStr => str_attributes
   | TList => list_attributes
   | TDict => dict_attributes
   end)%list.

(** [repr] of a float where it is easy to write down: the zeros, the
    infinities, nan, and whole numbers below 10^16 in magnitude, which print
    as the integer followed by [.0].  The other floats have no entry in this
    table; it answers [<float>] for them and nothing below renders one. *)
Definition whole_float_repr (f : float) : string :=
  match Prim2SF f with
  | S754_zero false => "0.0"
  | S754_zero true => "-0.0"
  | S754_infinity false => "inf"
  | S754_infinity true => "-inf"
  | S754_nan => "nan"
  | S754_finite sign m ex =>
      let whole :=
        if (0 <=? ex)%Z then Some (Z.pos m * 2 ^ ex)%Z
        else if (Z.pos m mod 2 ^ (- ex) =? 0)%Z
             then Some (Z.pos m / 2 ^ (- ex))%Z else None in
      match whole with
      | Some n =>
          if (n <? 10 ^ 16)%Z
          then (if sign then "-" else "") ++ int_str n ++ ".0"
          else "<float>"
      | None => "<float>"
      end
  end.

(** [posixpath.basename]: what follows the last slash. *)
Fixpoint basename_from (name path : string) : string :=
  match path with
  | EmptyString => name
  | String c rest =>
      if Ascii.eqb c "/" then basename_from "" rest
      else basename_from (name ++ String c "") rest
  end.

Definition posix_basename (path : string) : string := basename_from "" path.

(** CPython 3.11 on Linux. *)
Definition cpython_3_11 : Host := {|
  float_repr := whole_float_repr;
  int_max_str_digits := 4300;
  container_repr := py_repr whole_float_repr 4300;
  type_attributes := attributes;
  bool_parameter := IntegerOnly;
  sys_version := "3.11.2 (main, May 12 2026, 05:17:27) [GCC 12.2.0]";
  os_path_basename := posix_basename
|}.

(** A later CPython, whose [str.splitlines] takes the truth value of any
    argument; [int] has gained [is_integer]. *)
Definition cpython_3_12 : Host := {|
  float_repr := whole_float_repr;
  int_max_str_digits := 4300;
  container_repr := py_repr whole_float_repr 4300;
  type_attributes := fun t =>
    match t with
    | TBool | TInt => (attributes t ++ ["is_integer"])%list
    | _ => attributes t
    end;
  bool_parameter := AnyObject;
  sys_version := "3.12.3 (main, Feb  4 2025, 14:48:35) [GCC 13.3.0]";
  os_path_basename := posix_basename
|}.

(** An engine for templates without directives: the lexer splits the text
    into lines and joins them with LF, which also drops a final line end.
    A text with a brace is left to the real engine and refused here. *)
Definition literal_engine : Engine := {|
  template := string;
  Template := fun text =>
    if contains "{" text then Raise (ExternalError "TemplateSyntaxError")
    else Ok (concat (String LF "") (splitlines false text));
  render := fun tpl _ _ => Ok tpl
|}.

(** A file system with the one data file [data.json] holding [{"x": 42}]. *)
Definition data_files (path : string) : result value :=
  if String.eqb path "data.json" then Ok (VDict [("x", VInt 42)])
  else Raise (ExternalError "FileNotFoundError").

Definition world (installed : bool) (arguments : list string) : World := {|
  jinja2_installed := installed;
  argv0 := "scripts/transform_jinja2.py";
  args := arguments;
  stdin := ["(define (problem p1)" ++ String LF ""; ")" ++ String LF ""];
  load_json := data_files;
  now := "2018-10-21 19:03:45.123456"
|}.

End CPython.

(** The registry the main script installs. *)
Definition main_filters (h : Host) : registry :=
  [("tif", tif_call h); ("mapattr", map_call h)].

(** Numbers, the argument type [tif_filter] declares for [time]: a float, an
    int, or a bool (an int to Python). *)
Inductive number : Type :=
| NBool (b : bool)
| NInt (z : Z)
| NFloat (f : float).

Definition of_number (n : number) : value :=
  match n with
  | NBool b => VBool b
  | NInt z => VInt z
  | NFloat f => VFloat f
  end.

(** Strictly greater than zero. *)
Definition above_zero (n : number) : bool :=
  match n with
  | NBool b => b
  | NInt z => (0 <? z)%Z
  | NFloat f => PrimFloat.ltb 0%float f
  end.

(** Can the host convert the number to text: an int within the digit limit;
    a bool and a float always. *)
Definition renders (h : Host) (n : number) : bool :=
  match n with
  | NInt z => negb (too_many_digits (int_max_str_digits h) z)
  | _ => true
  end.

(** The text of a number: [True] or [False], the decimal digits of an int,
    the host's rendering of a float. *)
Definition number_str (h : Host) (n : number) : string :=
  match n with
  | NBool true => "True"
  | NBool false => "False"
  | NInt z => int_str z
  | NFloat f => float_repr h f
  end.

(** The texts the scripts write, named for the statements below. *)
Definition usage_line (h : Host) (w : World) : string :=
  "Usage: " ++ os_path_basename h (argv0 w) ++ " <data.json>".

Definition remediation : string :=
  "Jinja2 is not installed. Run this command in the terminal: python -m pip install jinja2".

Definition banner : string :=
  "; This PDDL problem file was generated using Jinja2 template".

Definition newline : string := String LF "".

(** An invocation whose template opens a directive and never closes it. *)
Definition unclosed_template_world : World := {|
  jinja2_installed := true;
  argv0 := "scripts/transform_jinja2.py";
  args := ["data.json"];
  stdin := ["(define (problem {{ data.x"];
  load_json := CPython.data_files;
  now := "2018-10-21 19:03:45.123456"
|}.

(** Predicates on arguments and traces, for the statements below. *)
Definition is_str (v : value) : bool :=
  match v with
  | VStr _ => true
  | _ => false
  end.

Definition is_number (v : value) : bool :=
  match v with
  | VBool _ | VInt _ | VFloat _ => true
  | _ => false
  end.

(** How often a run reads standard input, and how often it opens a data
    file. *)
Fixpoint stdin_reads (t : list event) : nat :=
  match t with
  | [] => 0
  | ReadStdin _ :: t' => S (stdin_reads t')
  | _ :: t' => stdin_reads t'
  end.

Fixpoint data_opens (t : list event) : nat :=
  match t with
  | [] => 0
  | OpenData _ :: t' => S (data_opens t')
  | _ :: t' => data_opens t'
  end.

(** The same invocation with other positional arguments. *)
Definition with_args (w : World) (arguments : list string) : World := {|
  jinja2_installed := jinja2_installed w;
  argv0 := argv0 w;
  args := arguments;
  stdin := stdin w;
  load_json := load_json w;
  now := now w
|}.

(** Standard output after a complete run: the render, then the trailer with
    [runtime] on its [Python:] line. *)
Definition full_output (rendered runtime data_path time : string) : string :=
  rendered ++ newline
  ++ banner ++ newline
  ++ ";    Python: " ++ runtime ++ newline
  ++ ";    Data: " ++ data_path ++ newline
  ++ ";    Time: " ++ time ++ newline.

(* ================================================================== *)
(** * Properties *)
(* ================================================================== *)

(** ** Strings *)

Lemma append_assoc (a b c : string) : (a ++ b) ++ c = a ++ (b ++ c).
Proof.
  induction a as [|x a IH]; simpl; [reflexivity|].
  now rewrite IH.
Qed.

(** Brings nested appends to the right-nested form and compares. *)
Ltac flatten_append :=
  cbn [append]; repeat (rewrite append_assoc; cbn [append]); reflexivity.

Lemma has_line_break_app (a b : string) :
  has_line_break (a ++ b) = has_line_break a || has_line_break b.
Proof.
  unfold has_line_break.
  induction a as [|x a IH]; simpl; [reflexivity|].
  now rewrite IH, orb_assoc.
Qed.

Lemma has_line_break_concat_head (sep x : string) (l : list string) :
  has_line_break x = true -> has_line_break (concat sep (x :: l)) = true.
Proof.
  intros Hx. destruct l as [|y l]; simpl; [exact Hx|].
  now rewrite has_line_break_app, Hx.
Qed.

(** ** [tif_filter] *)

Lemma as_strs_strings (tokens : list string) :
  as_strs (map VStr tokens) = Ok tokens.
Proof.
  induction tokens as [|s tokens IH]; simpl; [reflexivity|].
  now rewrite IH.
Qed.

Lemma gt_zero_number (t : number) : gt_zero (of_number t) = Ok (above_zero t).
Proof. destruct t; reflexivity. Qed.

(** ** Numbers as text *)

Lemma too_many_digits_power (limit : nat) :
  (0 < limit)%nat -> too_many_digits limit (10 ^ Z.of_nat limit) = true.
Proof.
  intros Hl. unfold too_many_digits.
  apply Nat.ltb_lt in Hl. rewrite Hl. cbn [andb].
  rewrite Z.abs_eq by (apply Z.pow_nonneg; lia).
  apply Z.leb_refl.
Qed.

Lemma too_many_digits_one_digit (limit : nat) (z : Z) :
  (Z.abs z < 10)%Z -> too_many_digits limit z = false.
Proof.
  intros Hz. unfold too_many_digits.
  destruct limit as [|n]; [reflexivity|]. cbn [Nat.ltb Nat.leb andb].
  apply Z.leb_gt.
  assert (H : (10 ^ 1 <= 10 ^ Z.of_nat (S n))%Z)
    by (apply Z.pow_le_mono_r; lia).
  rewrite Z.pow_1_r in H. lia.
Qed.

Lemma renders_one_digit (h : Host) (z : Z) :
  (Z.abs z < 10)%Z -> renders h (NInt z) = true.
Proof.
  intros Hz. unfold renders. now rewrite too_many_digits_one_digit.
Qed.

Lemma py_str_number (h : Host) (n : number) :
  py_str h (of_number n)
  = if renders h n then Ok (number_str h n) else Raise ValueError.
Proof.
  destruct n as [[|]|z|f]; cbn [of_number py_str renders number_str];
    try reflexivity.
  unfold int_to_str. destruct (too_many_digits _ z); reflexivity.
Qed.

(** On a host with a digit limit, the int [10 ^ limit] has one digit too
    many. *)
Lemma py_str_power_of_ten (h : Host) :
  (0 < int_max_str_digits h)%nat ->
  py_str h (VInt (10 ^ Z.of_nat (int_max_str_digits h))) = Raise ValueError.
Proof.
  intros Hl. cbn [py_str]. unfold int_to_str.
  now rewrite too_many_digits_power.
Qed.

(** The filter on a numeric time and str tokens, as the source computes it:
    the join, the text of the value, the choice on [time > 0], and only
    then the text of the time. *)
Lemma tif_filter_numeric (h : Host) (t : number) (v : value)
      (tokens : list string) :
  tif_filter h (of_number t) v (map VStr tokens) =
  rbind (py_str h v)
        (fun shown =>
           let assignment :=
             "(= (" ++ concat " " tokens ++ ") " ++ shown ++ ")" in
           if above_zero t
           then rbind (py_str h (of_number t))
                      (fun at_time =>
                         Ok ("(at " ++ at_time ++ " " ++ assignment ++ ")"))
           else Ok assignment).
Proof.
  unfold tif_filter, str_join.
  rewrite as_strs_strings. cbn [rbind].
  destruct (py_str h v) as [shown|x]; cbn [rbind]; [|reflexivity].
  rewrite gt_zero_number. reflexivity.
Qed.

(** The filter on numbers that render. *)
Lemma tif_filter_numbers (h : Host) (t v : number) (tokens : list string) :
  (above_zero t = true -> renders h t = true) ->
  renders h v = true ->
  tif_filter h (of_number t) (of_number v) (map VStr tokens) =
  Ok (if above_zero t
      then "(at " ++ number_str h t ++ " (= (" ++ concat " " tokens ++ ") "
             ++ number_str h v ++ "))"
      else "(= (" ++ concat " " tokens ++ ") " ++ number_str h v ++ ")").
Proof.
  intros Ht Hv. rewrite tif_filter_numeric, (py_str_number h v), Hv.
  cbn [rbind]. cbv zeta.
  destruct (above_zero t); [|reflexivity].
  rewrite (py_str_number h t), (Ht eq_refl). cbn [rbind].
  f_equal. flatten_append.
Qed.

(** An exception of the value's conversion is the filter's, whatever the
    time; one of the time's conversion is, when the time is above zero. *)
Lemma tif_filter_value_error (h : Host) (t : number) (v : value)
      (tokens : list string) (x : exn) :
  py_str h v = Raise x ->
  tif_filter h (of_number t) v (map VStr tokens) = Raise x.
Proof. intros Hv. rewrite tif_filter_numeric, Hv. reflexivity. Qed.

Lemma tif_filter_time_error (h : Host) (t v : number)
      (tokens : list string) (x : exn) :
  renders h v = true ->
  above_zero t = true ->
  py_str h (of_number t) = Raise x ->
  tif_filter h (of_number t) (of_number v) (map VStr tokens) = Raise x.
Proof.
  intros Hv Hpos Ht.
  rewrite tif_filter_numeric, (py_str_number h v), Hv. cbn [rbind]. cbv zeta.
  rewrite Hpos, Ht. reflexivity.
Qed.

Lemma power_of_ten_above_zero (n : Z) :
  (0 <= n)%Z -> above_zero (NInt (10 ^ n)) = true.
Proof.
  intros Hn. cbn [above_zero]. apply Z.ltb_lt.
  apply Z.pow_pos_nonneg; lia.
Qed.

(** C3, as stated, fails where the interpreter limits the digits of an int:
    on CPython 3.11 the value [10 ^ 4300] has 4301 digits and the call
    raises ValueError at time zero, and so does the time [10 ^ 4300] with
    the value 5. *)
Lemma tif_filter_too_many_digits :
  tif_filter CPython.cpython_3_11 (VInt 0) (VInt (10 ^ 4300)) [VStr "f"]
  = Raise ValueError
  /\ tif_filter CPython.cpython_3_11 (VInt (10 ^ 4300)) (VInt 5) [VStr "f"]
     = Raise ValueError.
Proof.
  split.
  - exact (tif_filter_value_error CPython.cpython_3_11 (NInt 0)
             (VInt (10 ^ 4300)) ["f"] ValueError
             (py_str_power_of_ten CPython.cpython_3_11 (Nat.lt_0_succ 4299))).
  - exact (tif_filter_time_error CPython.cpython_3_11 (NInt (10 ^ 4300))
             (NInt 5) ["f"] ValueError
             (renders_one_digit CPython.cpython_3_11 5 eq_refl)
             (power_of_ten_above_zero 4300 (Pos2Z.is_nonneg 4300))
             (py_str_power_of_ten CPython.cpython_3_11 (Nat.lt_0_succ 4299))).
Qed.

(** C3, amended.  For every numeric time [t] and numeric value [v] that the
    interpreter can convert to text (an int within its digit limit; the
    time only when it is above zero, as it is not printed otherwise) and
    all name tokens, [tif_filter] returns "(at <t> (= (<t1 ... tn>) <v>))"
    when [t] is strictly greater than zero and "(= (<t1 ... tn>) <v>)"
    otherwise, the tokens joined by single spaces in order; in particular a
    negative time gives the same result as time zero. *)
Theorem tif_filter_spec (h : Host) (t v : number) (tokens : list string) :
  (above_zero t = true -> renders h t = true) ->
  renders h v = true ->
  tif_filter h (of_number t) (of_number v) (map VStr tokens) =
  Ok (if above_zero t
      then "(at " ++ number_str h t ++ " (= (" ++ concat " " tokens ++ ") "
             ++ number_str h v ++ "))"
      else "(= (" ++ concat " " tokens ++ ") " ++ number_str h v ++ ")")
  /\ (forall p : positive,
        tif_filter h (VInt (Z.neg p)) (of_number v) (map VStr tokens) =
        tif_filter h (VInt 0) (of_number v) (map VStr tokens)).
Proof.
  intros Ht Hv. split.
  - now apply tif_filter_numbers.
  - intros p.
    now rewrite (tif_filter_numeric h (NInt (Z.neg p))),
                (tif_filter_numeric h (NInt 0)).
Qed.

Lemma tif_filter_spec_witness :
  tif_filter CPython.cpython_3_11 (VInt 7) (VInt 5)
             [VStr "fuel"; VStr "truck1"]
  = Ok "(at 7 (= (fuel truck1) 5))".
Proof.
  refine (proj1 (tif_filter_spec CPython.cpython_3_11 (NInt 7) (NInt 5)
                   ["fuel"; "truck1"] (fun _ => _) _));
    apply renders_one_digit; cbn; lia.
Defined.

(** C9, as stated, fails on the same input: with no name token, time zero
    and the value [10 ^ 4300] the call raises ValueError on CPython 3.11. *)
Lemma tif_filter_no_tokens_too_many_digits :
  tif_filter CPython.cpython_3_11 (VInt 0) (VInt (10 ^ 4300)) []
  = Raise ValueError.
Proof.
  exact (tif_filter_value_error CPython.cpython_3_11 (NInt 0)
           (VInt (10 ^ 4300)) [] ValueError
           (py_str_power_of_ten CPython.cpython_3_11 (Nat.lt_0_succ 4299))).
Qed.

(** C9, amended.  With no name token at all [tif_filter] raises nothing as
    long as the interpreter can convert the value, and the time when it is
    positive, to text: for a numeric time it returns "(= () <v>)", wrapped
    as "(at <t> (= () <v>))" when the time is positive; the joined name is
    empty. *)
Theorem tif_filter_no_tokens (h : Host) (t v : number) :
  (above_zero t = true -> renders h t = true) ->
  renders h v = true ->
  tif_filter h (of_number t) (of_number v) [] =
  Ok (if above_zero t
      then "(at " ++ number_str h t ++ " (= () " ++ number_str h v ++ "))"
      else "(= () " ++ number_str h v ++ ")").
Proof.
  intros Ht Hv.
  exact (tif_filter_numbers h t v [] Ht Hv).
Qed.

Lemma tif_filter_no_tokens_witness :
  tif_filter CPython.cpython_3_11 (VInt 0) (VInt 5) [] = Ok "(= () 5)".
Proof.
  refine (tif_filter_no_tokens CPython.cpython_3_11 (NInt 0) (NInt 5)
            (fun H => _) _).
  - discriminate H.
  - apply renders_one_digit; cbn; lia.
Defined.

(** ** [map_filter] *)

(** The two branches of the filter: the presence test is [hasattr], the
    retrieval is the subscript. *)
Lemma map_filter_attribute (h : Host) (v : value) (k : string) (d : value) :
  hasattr h v k = true -> map_filter h v k d = getitem v k.
Proof. unfold map_filter. now intros ->. Qed.

Lemma map_filter_no_attribute (h : Host) (v : value) (k : string) (d : value) :
  hasattr h v k = false -> map_filter h v k d = Ok d.
Proof. unfold map_filter. now intros ->. Qed.

(** C1, evaluated.  The mapping [{"x": 42}] has the key [x], its entry is
    42, and [mapattr] on it with the default 0 returns 0: a dict has no
    attribute named [x], so the presence test fails on either host. *)
Theorem map_filter_present_key_returns_default :
  getitem (VDict [("x", VInt 42)]) "x" = Ok (VInt 42)
  /\ map_filter CPython.cpython_3_11 (VDict [("x", VInt 42)]) "x" (VInt 0)
     = Ok (VInt 0)
  /\ map_filter CPython.cpython_3_12 (VDict [("x", VInt 42)]) "x" (VInt 0)
     = Ok (VInt 0).
Proof. repeat split; vm_compute; reflexivity. Qed.

(** C5, evaluated.  The mapping [{"y": 1}] has no key [keys], and [mapattr]
    on it with the name [keys] and the default 0 raises KeyError instead of
    returning 0: [keys] is an attribute of every dict.  On the str ["abc"],
    which has no keys at all, the name [upper] raises TypeError. *)
Theorem map_filter_absent_key_raises :
  lookup "keys" [("y", VInt 1)] = None
  /\ map_filter CPython.cpython_3_11 (VDict [("y", VInt 1)]) "keys" (VInt 0)
     = Raise (KeyError "keys")
  /\ map_filter CPython.cpython_3_11 (VStr "abc") "upper" (VInt 0)
     = Raise TypeError.
Proof. repeat split; vm_compute; reflexivity. Qed.

(** ** [sanitize_line_ends] *)

Lemma has_line_break_cons (c : ascii) (s : string) :
  has_line_break (String c s) = is_line_break c || has_line_break s.
Proof. reflexivity. Qed.

Lemma has_line_break_nonempty (s : string) :
  has_line_break s = true -> String.eqb s "" = false.
Proof. destruct s; [discriminate | reflexivity]. Qed.

(** With [keepends] set, a text with a line boundary is split into pieces
    that still carry it, whatever the separator of the join. *)
Lemma splitlines_keepends_has_line_break (sep s : string) :
  forall line,
    has_line_break s = true ->
    has_line_break (concat sep (splitlines_from true line s)) = true.
Proof.
  induction s as [|c rest IH]; intros line Hs; [discriminate|].
  rewrite has_line_break_cons in Hs.
  cbn [splitlines_from].
  destruct (is_line_break c) eqn:Hc.
  - assert (Hpiece : forall tail,
               has_line_break (line ++ String c tail) = true).
    { intros tail. rewrite has_line_break_app, has_line_break_cons, Hc.
      now rewrite orb_true_r. }
    destruct rest as [|c' rest'].
    + apply has_line_break_concat_head, Hpiece.
    + destruct (Ascii.eqb c CR && Ascii.eqb c' LF);
        apply has_line_break_concat_head, Hpiece.
  - apply IH. exact Hs.
Qed.

(** C2, as the code has it.  On a text with a line boundary the function
    never returns a text without one: where the interpreter wants an int
    for [keepends] the call raises TypeError, and where it takes the truth
    value of the text the boundaries are kept and ", " is put after them. *)
Theorem sanitize_line_ends_keeps_line_breaks (h : Host) (s : string) :
  has_line_break s = true ->
  match sanitize_line_ends h s with
  | Ok r => has_line_break r = true
  | Raise e => e = TypeError
  end.
Proof.
  intros Hs. unfold sanitize_line_ends, bool_of_str_argument.
  destruct (bool_parameter h); cbn [rbind]; [reflexivity|].
  rewrite (has_line_break_nonempty s Hs). cbn [negb].
  now apply splitlines_keepends_has_line_break.
Qed.

Lemma sanitize_line_ends_keeps_line_breaks_witness :
  has_line_break ("a" ++ String LF "b") = true
  /\ sanitize_line_ends CPython.cpython_3_12 ("a" ++ String LF "b")
     = Ok ("a" ++ String LF ", b")
  /\ has_line_break ("a" ++ String LF ", b") = true.
Proof.
  split; [reflexivity|]. split; [reflexivity|].
  exact (sanitize_line_ends_keeps_line_breaks
           CPython.cpython_3_12 ("a" ++ String LF "b") eq_refl).
Defined.

(** On a host that wants an int for [keepends], every call raises. *)
Lemma sanitize_line_ends_integer_only (h : Host) (s : string) :
  bool_parameter h = IntegerOnly -> sanitize_line_ends h s = Raise TypeError.
Proof. unfold sanitize_line_ends. now intros ->. Qed.

(** ** The scripts: error paths *)

(** [main] with an empty argument list, whatever the template. *)
Lemma main_no_arguments (h : Host) (e : Engine) (w : World) (text : string) :
  MainScript.main h e w text [] =
  ([Stderr (usage_line h w)], Halt (SystemExit (-1))).
Proof. reflexivity. Qed.

(** The whole script when the engine loads and no argument is given. *)
Lemma script_no_arguments (h : Host) (e : Engine) (w : World) :
  jinja2_installed w = true -> args w = [] ->
  MainScript.script h e w =
  ([ReadStdin (stdin w); Stderr (usage_line h w)], Halt (SystemExit (-1))).
Proof.
  intros Hj Ha. unfold MainScript.script. rewrite Hj, Ha. reflexivity.
Qed.



(** C7, as stated, fails when the engine is missing: with no positional
    argument and no jinja2 the script writes the remediation message and
    never the usage line. *)
Lemma no_arguments_without_engine_no_usage :
  args (CPython.world false []) = []
  /\ stderr_of (fst (run (MainScript.script CPython.cpython_3_11
                            CPython.literal_engine (CPython.world false []))))
     = remediation
  /\ ~ (forall (h : Host) (e : Engine) (w : World),
          args w = [] ->
          stderr_of (fst (run (MainScript.script h e w)))
          = "Usage: " ++ os_path_basename h (argv0 w) ++ " <data.json>").
Proof.
  split; [reflexivity|]. split; [reflexivity|].
  intros H.
  specialize (H CPython.cpython_3_11 CPython.literal_engine
                (CPython.world false []) eq_refl).
  vm_compute in H. discriminate H.
Qed.

(** C7, amended.  With no positional argument [main] writes the usage line,
    which names the basename of the program and [<data.json>], to standard
    error and calls [exit(-1)]; so does the script as a whole once jinja2
    has been imported: standard error holds the usage line, standard output
    is empty and the status is not zero. *)
Theorem no_arguments_prints_usage (h : Host) (e : Engine) (w : World) :
  jinja2_installed w = true ->
  args w = [] ->
  (forall text,
      run (MainScript.main h e w text []) =
      ([Stderr ("Usage: " ++ os_path_basename h (argv0 w) ++ " <data.json>")],
       SystemExit (-1)))
  /\ stderr_of (fst (run (MainScript.script h e w)))
     = "Usage: " ++ os_path_basename h (argv0 w) ++ " <data.json>"
  /\ stdout_of (fst (run (MainScript.script h e w))) = ""
  /\ snd (run (MainScript.script h e w)) = SystemExit (-1)
  /\ exit_status (snd (run (MainScript.script h e w))) <> 0%Z.
Proof.
  intros Hj Ha. split.
  - intros text. now rewrite main_no_arguments.
  - rewrite (script_no_arguments h e w Hj Ha). cbn.
    rewrite append_assoc. cbn.
    repeat split. discriminate.
Qed.

Lemma no_arguments_prints_usage_witness :
  stderr_of (fst (run (MainScript.script CPython.cpython_3_11
                         CPython.literal_engine (CPython.world true []))))
  = "Usage: transform_jinja2.py <data.json>".
Proof.
  exact (proj1 (proj2 (no_arguments_prints_usage
                         CPython.cpython_3_11 CPython.literal_engine
                         (CPython.world true []) eq_refl eq_refl))).
Defined.

(** C10, as stated, fails when the engine is missing: with no positional
    argument and no jinja2 the run is the one write of the remediation
    message; standard input is not read and no usage line is written. *)
Lemma no_arguments_without_engine_reads_nothing :
  args (CPython.world false []) = []
  /\ fst (run (MainScript.script CPython.cpython_3_11 CPython.literal_engine
                 (CPython.world false [])))
     = [Stderr remediation]
  /\ ~ (forall (h : Host) (e : Engine) (w : World),
          args w = [] ->
          existsb reads_input (fst (run (MainScript.script h e w))) = true).
Proof.
  split; [reflexivity|]. split; [reflexivity|].
  intros H.
  specialize (H CPython.cpython_3_11 CPython.literal_engine
                (CPython.world false []) eq_refl).
  vm_compute in H. discriminate H.
Qed.

(** C10, amended.  With no positional argument, once jinja2 has been
    imported, the trace of the run is: read all the lines of standard input,
    then write the usage line to standard error; the run ends in [exit(-1)],
    a status that is not zero.  The template is read before the arguments
    are counted. *)
Theorem no_arguments_still_reads_stdin (h : Host) (e : Engine) (w : World) :
  jinja2_installed w = true ->
  args w = [] ->
  fst (run (MainScript.script h e w))
  = [ReadStdin (stdin w);
     Stderr ("Usage: " ++ os_path_basename h (argv0 w) ++ " <data.json>")]
  /\ snd (run (MainScript.script h e w)) = SystemExit (-1)
  /\ exit_status (SystemExit (-1)) <> 0%Z.
Proof.
  intros Hj Ha. rewrite (script_no_arguments h e w Hj Ha).
  repeat split. discriminate.
Qed.

Lemma no_arguments_still_reads_stdin_witness :
  fst (run (MainScript.script CPython.cpython_3_12 CPython.literal_engine
              (CPython.world true [])))
  = [ReadStdin (stdin (CPython.world true []));
     Stderr "Usage: transform_jinja2.py <data.json>"].
Proof.
  exact (proj1 (no_arguments_still_reads_stdin
                  CPython.cpython_3_12 CPython.literal_engine
                  (CPython.world true []) eq_refl eq_refl)).
Defined.

(** ** The scripts: the successful render and its trailer *)

(** [keepends] set or not, a text without a line boundary is one line. *)
Lemma splitlines_from_single_line (keepends : bool) (s : string) :
  forall line,
    has_line_break s = false ->
    splitlines_from keepends line s =
    match line ++ s with
    | EmptyString => []
    | _ => [line ++ s]
    end.
Proof.
  induction s as [|c rest IH]; intros line Hs.
  - cbn [splitlines_from].
    replace (line ++ "") with line
      by (clear; induction line as [|x l IHl]; cbn; [|rewrite <- IHl]; reflexivity).
    destruct line; reflexivity.
  - rewrite has_line_break_cons in Hs.
    apply orb_false_iff in Hs as [Hc Hrest].
    cbn [splitlines_from]. rewrite Hc.
    rewrite (IH _ Hrest), append_assoc. reflexivity.
Qed.

(** Where the interpreter takes the truth value of [keepends], a one-line
    text that is not empty comes back unchanged. *)
Lemma sanitize_line_ends_single_line (h : Host) (s : string) :
  bool_parameter h = AnyObject ->
  has_line_break s = false ->
  s <> "" ->
  sanitize_line_ends h s = Ok s.
Proof.
  intros Hb Hs Hne. unfold sanitize_line_ends, bool_of_str_argument, splitlines.
  rewrite Hb. cbn [rbind].
  rewrite (splitlines_from_single_line _ s "" Hs). cbn [append].
  destruct s; [contradiction|reflexivity].
Qed.

Section Render.

Variables (h : Host) (e : Engine) (w : World).
Variables (data_path : string) (more : list string).
Variables (data : value) (tpl : template e) (rendered : string).

Hypothesis engine_loads : jinja2_installed w = true.
Hypothesis one_argument : args w = data_path :: more.
Hypothesis data_loads : load_json w data_path = Ok data.
Hypothesis template_compiles : Template e (concat "" (stdin w)) = Ok tpl.
Hypothesis template_renders : render e tpl (main_filters h) data = Ok rendered.

(** The main script up to and including the banner. *)
Lemma main_script_render :
  MainScript.script h e w =
  bind ([ReadStdin (stdin w); OpenData data_path;
         Stdout (rendered ++ newline); Stdout (banner ++ newline)], Next tt)
       (fun _ =>
          bind (lift (sanitize_line_ends h (sys_version h)))
               (fun version =>
                  bind (print (";    Python: " ++ version))
                       (fun _ =>
                          bind (print (";    Data: " ++ data_path))
                               (fun _ => print (";    Time: " ++ now w))))).
Proof.
  unfold MainScript.script, MainScript.main.
  rewrite engine_loads, one_argument. cbn [List.length Nat.ltb Nat.leb].
  cbn [bind ret first_arg lift app].
  rewrite data_loads. cbn [bind ret lift app].
  rewrite template_compiles. cbn [bind ret lift app].
  fold (main_filters h). rewrite template_renders.
  cbn [bind ret lift app print].
  destruct (lift (sanitize_line_ends h (sys_version h))) as [t [version|o]];
    reflexivity.
Qed.

(** On an interpreter that takes the truth value of [keepends], with a
    one-line [sys.version], the render is followed by the four trailer
    lines and the run completes. *)
Lemma main_script_full_trailer :
  bool_parameter h = AnyObject ->
  has_line_break (sys_version h) = false ->
  sys_version h <> "" ->
  run (MainScript.script h e w) =
  ([ReadStdin (stdin w); OpenData data_path;
    Stdout (rendered ++ newline);
    Stdout (banner ++ newline);
    Stdout ((";    Python: " ++ sys_version h) ++ newline);
    Stdout ((";    Data: " ++ data_path) ++ newline);
    Stdout ((";    Time: " ++ now w) ++ newline)], Completed).
Proof.
  intros Hb Hv Hne. rewrite main_script_render.
  rewrite (sanitize_line_ends_single_line h _ Hb Hv Hne). reflexivity.
Qed.

(** On an interpreter that wants an int for [keepends], the run stops
    with TypeError after the banner. *)
Lemma main_script_cut_short :
  bool_parameter h = IntegerOnly ->
  run (MainScript.script h e w) =
  ([ReadStdin (stdin w); OpenData data_path;
    Stdout (rendered ++ newline);
    Stdout (banner ++ newline)], Uncaught TypeError).
Proof.
  intros Hb. rewrite main_script_render.
  rewrite (sanitize_line_ends_integer_only h _ Hb). reflexivity.
Qed.

End Render.

(** C4, as the code has it.  On an interpreter whose [str.splitlines] wants
    an int for [keepends] (CPython up to 3.11), a successful render is
    followed on standard output by the banner line only: the sanitizer
    raises TypeError before the [Python:] line is printed, the [Data:] and
    [Time:] lines never appear, and the status is 1. *)
Theorem trailer_cut_short_after_banner
        (h : Host) (e : Engine) (w : World) (data_path : string)
        (more : list string) (data : value) (tpl : template e)
        (rendered : string) :
  bool_parameter h = IntegerOnly ->
  jinja2_installed w = true ->
  args w = data_path :: more ->
  load_json w data_path = Ok data ->
  Template e (concat "" (stdin w)) = Ok tpl ->
  render e tpl (main_filters h) data = Ok rendered ->
  stdout_of (fst (run (MainScript.script h e w)))
  = rendered ++ newline ++ banner ++ newline
  /\ snd (run (MainScript.script h e w)) = Uncaught TypeError
  /\ exit_status (snd (run (MainScript.script h e w))) = 1%Z.
Proof.
  intros Hb Hj Ha Hd Ht Hr.
  rewrite (main_script_cut_short h e w data_path more data tpl rendered
             Hj Ha Hd Ht Hr Hb).
  cbn [fst snd stdout_of exit_status]. repeat split.
  flatten_append.
Qed.

Lemma trailer_cut_short_after_banner_witness :
  stdout_of (fst (run (MainScript.script CPython.cpython_3_11
                         CPython.literal_engine
                         (CPython.world true ["data.json"]))))
  = ("(define (problem p1)" ++ newline ++ ")") ++ newline ++ banner ++ newline
  /\ snd (run (MainScript.script CPython.cpython_3_11 CPython.literal_engine
                 (CPython.world true ["data.json"])))
     = Uncaught TypeError.
Proof.
  pose proof (trailer_cut_short_after_banner
                CPython.cpython_3_11 CPython.literal_engine
                (CPython.world true ["data.json"]) "data.json" []
                (VDict [("x", VInt 42)])
                ("(define (problem p1)" ++ newline ++ ")")
                ("(define (problem p1)" ++ newline ++ ")")
                eq_refl eq_refl eq_refl eq_refl eq_refl eq_refl) as [Ho [Hs _]].
  split; [exact Ho | exact Hs].
Defined.

(** ** The variant against the main script *)

(** C8, as the code has it.  On an interpreter whose [str.splitlines] wants
    an int for [keepends] (CPython up to 3.11) the two scripts differ in
    more than the filters and the sanitizing of the runtime identifier: on
    a render that succeeds in both, the main script stops with TypeError
    after the banner line and ends with status 1, while the variant prints
    the render and all four trailer lines and ends with status 0. *)
Theorem scripts_differ_after_banner
        (h : Host) (e : Engine) (w : World) (data_path : string)
        (more : list string) (data : value) (tpl : template e)
        (rendered rendered' : string) :
  bool_parameter h = IntegerOnly ->
  jinja2_installed w = true ->
  args w = data_path :: more ->
  load_json w data_path = Ok data ->
  Template e (concat "" (stdin w)) = Ok tpl ->
  render e tpl (main_filters h) data = Ok rendered ->
  render e tpl [] data = Ok rendered' ->
  (stdout_of (fst (run (MainScript.script h e w)))
   = rendered ++ newline ++ banner ++ newline
   /\ snd (run (MainScript.script h e w)) = Uncaught TypeError
   /\ exit_status (snd (run (MainScript.script h e w))) = 1%Z)
  /\ (stdout_of (fst (run (VariantScript.script h e w)))
      = full_output rendered' (sys_version h) data_path (now w)
      /\ snd (run (VariantScript.script h e w)) = Completed
      /\ exit_status (snd (run (VariantScript.script h e w))) = 0%Z).
Proof.
  intros Hb Hj Ha Hd Ht Hr Hr'. split.
  - rewrite (main_script_cut_short h e w data_path more data tpl rendered
               Hj Ha Hd Ht Hr Hb).
    cbn [fst snd stdout_of exit_status]. repeat split. flatten_append.
  - unfold VariantScript.script, VariantScript.main.
    rewrite Hj, Ha.
    cbn [List.length Nat.ltb Nat.leb first_arg bind ret lift app].
    rewrite Hd. cbn [bind ret lift app].
    rewrite Ht. cbn [bind ret lift app].
    rewrite Hr'. cbn [bind ret lift app print run fst snd stdout_of exit_status].
    repeat split. unfold full_output, banner, newline. flatten_append.
Qed.

Lemma scripts_differ_after_banner_witness :
  exit_status (snd (run (MainScript.script CPython.cpython_3_11
                           CPython.literal_engine
                           (CPython.world true ["data.json"])))) = 1%Z
  /\ exit_status (snd (run (VariantScript.script CPython.cpython_3_11
                              CPython.literal_engine
                              (CPython.world true ["data.json"])))) = 0%Z.
Proof.
  pose proof (scripts_differ_after_banner
                CPython.cpython_3_11 CPython.literal_engine
                (CPython.world true ["data.json"]) "data.json" []
                (VDict [("x", VInt 42)])
                ("(define (problem p1)" ++ newline ++ ")")
                ("(define (problem p1)" ++ newline ++ ")")
                ("(define (problem p1)" ++ newline ++ ")")
                eq_refl eq_refl eq_refl eq_refl eq_refl eq_refl eq_refl)
    as [[_ [_ Hmain]] [_ [_ Hvariant]]].
  split; [exact Hmain | exact Hvariant].
Defined.


(* ================================================================== *)
(** * Further properties of the filters *)
(* ================================================================== *)

Lemma append_empty_r (a : string) : a ++ "" = a.
Proof. induction a as [|x a IH]; cbn; [|rewrite IH]; reflexivity. Qed.

Lemma as_strs_cases (names : list value) :
  if forallb is_str names
  then exists l, as_strs names = Ok l
  else as_strs names = Raise TypeError.
Proof.
  induction names as [|v names IH]; cbn; [now exists []|].
  destruct v; cbn; try reflexivity.
  destruct (forallb is_str names).
  - destruct IH as [l ->]. now eexists.
  - now rewrite IH.
Qed.

(** [tif_filter] looks at the name tokens first: when one of them is not a
    str it raises TypeError, whatever the time and the value.  With str
    tokens and a value that has a text, a time that is not a bool, an int
    or a float raises TypeError.  So the filter returns only if every
    token is a str, the value has a text and the time is a number. *)
Theorem tif_filter_returns_only_if (h : Host) (t v : value)
        (names : list value) :
  (forallb is_str names = false -> tif_filter h t v names = Raise TypeError)
  /\ (forall shown,
        forallb is_str names = true -> py_str h v = Ok shown ->
        is_number t = false -> tif_filter h t v names = Raise TypeError)
  /\ (forall s,
        tif_filter h t v names = Ok s ->
        forallb is_str names = true
        /\ is_number t = true
        /\ exists shown, py_str h v = Ok shown).
Proof.
  unfold tif_filter, str_join.
  pose proof (as_strs_cases names) as Hn.
  destruct (forallb is_str names).
  - destruct Hn as [l ->]. cbn [rbind].
    split; [discriminate|]. split.
    + intros shown _ -> Ht. cbn [rbind].
      destruct t; try discriminate Ht; reflexivity.
    + intros s Hs.
      destruct (py_str h v) as [shown|x]; cbn [rbind] in Hs; [|discriminate Hs].
      split; [reflexivity|]. split; [|now exists shown].
      destruct t; cbn in Hs; try discriminate Hs; reflexivity.
  - rewrite Hn. cbn [rbind].
    split; [reflexivity|]. split; [discriminate|]. discriminate.
Qed.

(** For a time above zero the result is the result for time zero wrapped in
    "(at <time> ...)" with the text of the time: the assignment inside does
    not depend on the time, a call that fails for time zero fails the same
    way for every numeric time above zero, and after that only the
    conversion of the time to text can still fail. *)
Theorem tif_filter_wraps_untimed (h : Host) (t : number) (v : value)
        (names : list value) :
  above_zero t = true ->
  tif_filter h (of_number t) v names =
  rbind (tif_filter h (VInt 0) v names)
        (fun assignment =>
           rbind (py_str h (of_number t))
                 (fun at_time =>
                    Ok ("(at " ++ at_time ++ " " ++ assignment ++ ")"))).
Proof.
  intros Ht. unfold tif_filter.
  destruct (str_join " " names) as [name|x]; cbn [rbind]; [|reflexivity].
  destruct (py_str h v) as [shown|x]; cbn [rbind]; [|reflexivity].
  rewrite gt_zero_number, Ht. reflexivity.
Qed.

Lemma tif_filter_wraps_untimed_witness :
  tif_filter CPython.cpython_3_11 (VInt 7) (VInt 5)
             [VStr "fuel"; VStr "truck1"]
  = rbind (tif_filter CPython.cpython_3_11 (VInt 0) (VInt 5)
                      [VStr "fuel"; VStr "truck1"])
          (fun assignment =>
             rbind (py_str CPython.cpython_3_11 (VInt 7))
                   (fun at_time =>
                      Ok ("(at " ++ at_time ++ " " ++ assignment ++ ")"))).
Proof.
  exact (tif_filter_wraps_untimed CPython.cpython_3_11 (NInt 7) (VInt 5)
           [VStr "fuel"; VStr "truck1"] eq_refl).
Defined.

(** Name tokens are joined without quoting: one token with a space in it
    gives the same result as the two tokens on either side of the space. *)
Theorem tif_filter_space_in_token (h : Host) (t v : value) (a b : string)
        (rest : list value) :
  tif_filter h t v (VStr (a ++ " " ++ b) :: rest)
  = tif_filter h t v (VStr a :: VStr b :: rest).
Proof.
  unfold tif_filter, str_join. cbn [as_strs].
  destruct (as_strs rest) as [l|x]; cbn [rbind]; [|reflexivity].
  replace (concat " " ((a ++ " " ++ b) :: l)) with (concat " " (a :: b :: l));
    [reflexivity|].
  destruct l as [|y l]; cbn [concat]; [reflexivity|].
  now rewrite !append_assoc.
Qed.

(** Every result of [map_filter], by case: the default is returned exactly
    when the value has no attribute of that name; an entry is returned only
    from a dict that has the name both as an attribute and as a key; a dict
    with the attribute but not the key raises KeyError of that key; any
    other value with the attribute raises TypeError. *)
Theorem map_filter_cases (h : Host) (v : value) (k : string) (d : value) :
  match map_filter h v k d with
  | Ok x =>
      (hasattr h v k = false /\ x = d)
      \/ (hasattr h v k = true
          /\ exists entries, v = VDict entries /\ lookup k entries = Some x)
  | Raise (KeyError k') =>
      k' = k /\ hasattr h v k = true
      /\ exists entries, v = VDict entries /\ lookup k entries = None
  | Raise TypeError => hasattr h v k = true /\ type_of v <> TDict
  | Raise _ => False
  end.
Proof.
  unfold map_filter.
  destruct (hasattr h v k) eqn:Ha; [|now left].
  destruct v; cbn [getitem type_of]; try (split; [reflexivity|discriminate]).
  destruct (lookup k entries) eqn:Hl.
  - right. split; [reflexivity|]. now exists entries.
  - repeat split. now exists entries.
Qed.

(** ** [sanitize_line_ends] where [keepends] takes any object *)

(** A text without a line boundary, the empty text included, comes back as
    it is. *)
Theorem sanitize_line_ends_one_line (h : Host) (s : string) :
  bool_parameter h = AnyObject ->
  has_line_break s = false ->
  sanitize_line_ends h s = Ok s.
Proof.
  intros Hb Hs. destruct s as [|c s].
  - unfold sanitize_line_ends. rewrite Hb. reflexivity.
  - apply sanitize_line_ends_single_line; [exact Hb|exact Hs|discriminate].
Qed.

Lemma sanitize_line_ends_one_line_witness :
  sanitize_line_ends CPython.cpython_3_12 (sys_version CPython.cpython_3_12)
  = Ok "3.12.3 (main, Feb  4 2025, 14:48:35) [GCC 13.3.0]".
Proof.
  exact (sanitize_line_ends_one_line CPython.cpython_3_12
           (sys_version CPython.cpython_3_12) eq_refl eq_refl).
Defined.

Lemma concat_empty_cons (x : string) (l : list string) :
  concat "" (x :: l) = x ++ concat "" l.
Proof. destruct l; cbn [concat append]; [now rewrite append_empty_r|reflexivity]. Qed.

(** With [keepends] set the pieces, put end to end, are the text. *)
Lemma splitlines_keepends_concat (n : nat) :
  forall s line,
    (String.length s <= n)%nat ->
    concat "" (splitlines_from true line s) = line ++ s.
Proof.
  induction n as [|n IH]; intros s line Hn.
  - destruct s; [|cbn in Hn; lia].
    cbn [splitlines_from]. rewrite append_empty_r. destruct line; reflexivity.
  - destruct s as [|c rest].
    { cbn [splitlines_from]. rewrite append_empty_r. destruct line; reflexivity. }
    cbn [String.length] in Hn. cbn [splitlines_from].
    destruct (is_line_break c).
    + destruct rest as [|c' rest'].
      * rewrite concat_empty_cons. cbn [splitlines_from concat].
        now rewrite append_empty_r.
      * destruct (Ascii.eqb c CR && Ascii.eqb c' LF);
          rewrite concat_empty_cons.
        -- rewrite (IH rest' "") by (cbn [String.length] in Hn; lia).
           now rewrite append_assoc.
        -- rewrite (IH (String c' rest') "") by lia.
           now rewrite append_assoc.
    + rewrite (IH rest) by lia. now rewrite append_assoc.
Qed.

(** No character is dropped: the result is the text cut into pieces that
    are joined by ", ", and the pieces put end to end are the text. *)
Theorem sanitize_line_ends_drops_nothing (h : Host) (s : string) :
  bool_parameter h = AnyObject ->
  exists pieces,
    sanitize_line_ends h s = Ok (concat ", " pieces)
    /\ concat "" pieces = s.
Proof.
  intros Hb. unfold sanitize_line_ends. rewrite Hb. cbn [bool_of_str_argument rbind].
  destruct s as [|c s].
  - exists []. split; reflexivity.
  - exists (splitlines true (String c s)). split; [reflexivity|].
    unfold splitlines.
    now rewrite (splitlines_keepends_concat _ (String c s) "" (le_n _)).
Qed.

Lemma sanitize_line_ends_drops_nothing_witness :
  exists pieces,
    sanitize_line_ends CPython.cpython_3_12 ("a" ++ String LF "b")
    = Ok (concat ", " pieces)
    /\ concat "" pieces = "a" ++ String LF "b".
Proof.
  exact (sanitize_line_ends_drops_nothing CPython.cpython_3_12
           ("a" ++ String LF "b") eq_refl).
Defined.

(* ================================================================== *)
(** * Further properties of the scripts *)
(* ================================================================== *)

(** Case analysis on what a run finds, in the order the scripts ask. *)
Ltac script_cases :=
  repeat
    (cbn [List.length Nat.ltb Nat.leb first_arg bind ret lift app print exit];
     match goal with
     | |- context [jinja2_installed ?w] => destruct (jinja2_installed w) eqn:?
     | |- context [args ?w] => destruct (args w) eqn:?
     | |- context [load_json ?w ?p] => destruct (load_json w p) eqn:?
     | |- context [Template ?e ?t] => destruct (Template e t) eqn:?
     | |- context [render ?e ?t ?f ?d] => destruct (render e t f d) eqn:?
     | |- context [sanitize_line_ends ?h ?s] =>
         destruct (sanitize_line_ends h s) eqn:?
     end);
  cbn [List.length Nat.ltb Nat.leb first_arg bind ret lift app print exit].

(** ** The main script *)

(** Whatever reaches standard output, the render came first: output that is
    not empty means that jinja2 was imported, an argument was given, the
    data file loaded, and the template compiled and rendered.  A failure of
    any of these leaves standard output empty; there is no partial render. *)
Theorem main_script_output_needs_render (h : Host) (e : Engine) (w : World) :
  stdout_of (fst (run (MainScript.script h e w))) <> "" ->
  exists data_path more data tpl rendered,
    jinja2_installed w = true
    /\ args w = data_path :: more
    /\ load_json w data_path = Ok data
    /\ Template e (concat "" (stdin w)) = Ok tpl
    /\ render e tpl (main_filters h) data = Ok rendered.
Proof.
  unfold MainScript.script, MainScript.main, main_filters.
  script_cases; cbn; intros Hout; try (exfalso; apply Hout; reflexivity);
    repeat eexists; eassumption.
Qed.

Lemma main_script_output_needs_render_witness :
  exists data_path more data tpl rendered,
    jinja2_installed (CPython.world true ["data.json"]) = true
    /\ args (CPython.world true ["data.json"]) = data_path :: more
    /\ load_json (CPython.world true ["data.json"]) data_path = Ok data
    /\ Template CPython.literal_engine
                (concat "" (stdin (CPython.world true ["data.json"]))) = Ok tpl
    /\ render CPython.literal_engine tpl (main_filters CPython.cpython_3_11) data
       = Ok rendered.
Proof.
  apply (main_script_output_needs_render CPython.cpython_3_11
           CPython.literal_engine (CPython.world true ["data.json"])).
  vm_compute. discriminate.
Defined.

(** Status 0 means the whole output is there: the run ends with status 0
    only if every step succeeded, the sanitizer included, and then standard
    output is the render followed by the four trailer lines. *)
Theorem main_script_status_zero (h : Host) (e : Engine) (w : World) :
  exit_status (snd (run (MainScript.script h e w))) = 0%Z ->
  exists data_path more data tpl rendered version,
    args w = data_path :: more
    /\ load_json w data_path = Ok data
    /\ Template e (concat "" (stdin w)) = Ok tpl
    /\ render e tpl (main_filters h) data = Ok rendered
    /\ sanitize_line_ends h (sys_version h) = Ok version
    /\ stdout_of (fst (run (MainScript.script h e w)))
       = full_output rendered version data_path (now w).
Proof.
  unfold MainScript.script, MainScript.main, main_filters, full_output.
  script_cases; cbn [run fst snd exit_status]; intros Hs;
    try discriminate Hs.
  do 6 eexists. repeat (split; [eassumption || reflexivity|]).
  cbn [stdout_of]. unfold banner, newline. flatten_append.
Qed.

Lemma main_script_status_zero_witness :
  exists data_path more data tpl rendered version,
    args (CPython.world true ["data.json"]) = data_path :: more
    /\ load_json (CPython.world true ["data.json"]) data_path = Ok data
    /\ Template CPython.literal_engine
                (concat "" (stdin (CPython.world true ["data.json"]))) = Ok tpl
    /\ render CPython.literal_engine tpl (main_filters CPython.cpython_3_12) data
       = Ok rendered
    /\ sanitize_line_ends CPython.cpython_3_12 (sys_version CPython.cpython_3_12)
       = Ok version
    /\ stdout_of (fst (run (MainScript.script CPython.cpython_3_12
                              CPython.literal_engine
                              (CPython.world true ["data.json"]))))
       = full_output rendered version data_path
                     (now (CPython.world true ["data.json"])).
Proof.
  exact (main_script_status_zero CPython.cpython_3_12 CPython.literal_engine
           (CPython.world true ["data.json"]) eq_refl).
Defined.

(** When the data file cannot be opened, decoded or parsed, standard input
    has been read in full already, the script prints nothing and the
    exception ends the run with status 1 (the traceback is the
    interpreter's, not an event of the script); the template is not
    compiled. *)
Theorem main_script_data_failure
        (h : Host) (e : Engine) (w : World) (data_path : string)
        (more : list string) (x : exn) :
  jinja2_installed w = true ->
  args w = data_path :: more ->
  load_json w data_path = Raise x ->
  run (MainScript.script h e w)
  = ([ReadStdin (stdin w); OpenData data_path], Uncaught x)
  /\ exit_status (Uncaught x) = 1%Z.
Proof.
  intros Hj Ha Hd. unfold MainScript.script, MainScript.main.
  rewrite Hj, Ha. cbn [List.length Nat.ltb Nat.leb first_arg bind ret lift app].
  rewrite Hd. split; reflexivity.
Qed.

Lemma main_script_data_failure_witness :
  run (MainScript.script CPython.cpython_3_12 CPython.literal_engine
         (CPython.world true ["missing.json"]))
  = ([ReadStdin (stdin (CPython.world true ["missing.json"]));
      OpenData "missing.json"],
     Uncaught (ExternalError "FileNotFoundError")).
Proof.
  exact (proj1 (main_script_data_failure CPython.cpython_3_12
                  CPython.literal_engine (CPython.world true ["missing.json"])
                  "missing.json" [] (ExternalError "FileNotFoundError")
                  eq_refl eq_refl eq_refl)).
Defined.

(** When the engine refuses the template, or fails while rendering it, the
    data file has been loaded already and nothing at all is printed: the
    render is written only once it is complete. *)
Theorem main_script_engine_failure
        (h : Host) (e : Engine) (w : World) (data_path : string)
        (more : list string) (data : value) (x : exn) :
  jinja2_installed w = true ->
  args w = data_path :: more ->
  load_json w data_path = Ok data ->
  Template e (concat "" (stdin w)) = Raise x
  \/ (exists tpl, Template e (concat "" (stdin w)) = Ok tpl
                  /\ render e tpl (main_filters h) data = Raise x) ->
  run (MainScript.script h e w)
  = ([ReadStdin (stdin w); OpenData data_path], Uncaught x).
Proof.
  intros Hj Ha Hd Hx. unfold MainScript.script, MainScript.main.
  rewrite Hj, Ha. cbn [List.length Nat.ltb Nat.leb first_arg bind ret lift app].
  rewrite Hd. cbn [bind ret lift app].
  destruct Hx as [Ht | [tpl [Ht Hr]]]; rewrite Ht; cbn [bind ret lift app];
    [reflexivity|].
  fold (main_filters h). rewrite Hr. reflexivity.
Qed.

Lemma main_script_engine_failure_witness :
  run (MainScript.script CPython.cpython_3_12 CPython.literal_engine
         unclosed_template_world)
  = ([ReadStdin (stdin unclosed_template_world); OpenData "data.json"],
     Uncaught (ExternalError "TemplateSyntaxError")).
Proof.
  exact (main_script_engine_failure CPython.cpython_3_12
           CPython.literal_engine unclosed_template_world "data.json" []
           (VDict [("x", VInt 42)]) (ExternalError "TemplateSyntaxError")
           eq_refl eq_refl eq_refl (or_introl eq_refl)).
Defined.

(** Only the first positional argument counts: the run is the same as with
    that argument alone. *)
Theorem main_script_ignores_more_arguments
        (h : Host) (e : Engine) (w : World) (data_path : string)
        (more : list string) :
  args w = data_path :: more ->
  MainScript.script h e w = MainScript.script h e (with_args w [data_path]).
Proof.
  intros Ha. unfold MainScript.script, MainScript.main.
  rewrite Ha. reflexivity.
Qed.

Lemma main_script_ignores_more_arguments_witness :
  MainScript.script CPython.cpython_3_11 CPython.literal_engine
                    (CPython.world true ["data.json"; "other.json"; "-v"])
  = MainScript.script CPython.cpython_3_11 CPython.literal_engine
                      (with_args
                         (CPython.world true ["data.json"; "other.json"; "-v"])
                         ["data.json"]).
Proof.
  exact (main_script_ignores_more_arguments CPython.cpython_3_11
           CPython.literal_engine
           (CPython.world true ["data.json"; "other.json"; "-v"])
           "data.json" ["other.json"; "-v"] eq_refl).
Defined.

(** Every run of either script reads standard input once if jinja2 was
    imported and never otherwise, and opens a data file once if moreover an
    argument was given and never otherwise, whatever fails later. *)
Theorem scripts_read_each_input_once (h : Host) (e : Engine) (w : World) :
  stdin_reads (fst (run (MainScript.script h e w)))
  = (if jinja2_installed w then 1 else 0)%nat
  /\ data_opens (fst (run (MainScript.script h e w)))
     = (if jinja2_installed w
        then match args w with [] => 0 | _ :: _ => 1 end
        else 0)%nat
  /\ stdin_reads (fst (run (VariantScript.script h e w)))
     = (if jinja2_installed w then 1 else 0)%nat
  /\ data_opens (fst (run (VariantScript.script h e w)))
     = (if jinja2_installed w
        then match args w with [] => 0 | _ :: _ => 1 end
        else 0)%nat.
Proof.
  unfold MainScript.script, MainScript.main,
         VariantScript.script, VariantScript.main.
  destruct (jinja2_installed w); [|repeat split].
  destruct (args w) as [|data_path more]; [repeat split|].
  repeat split; script_cases; reflexivity.
Qed.

(** With [keepends] taking any object and a one-line [sys.version], a
    render that succeeds is followed by the four trailer lines, the
    [Python:] line carrying [sys.version] as it is, and the run completes
    with status 0. *)
Theorem main_script_complete_output
        (h : Host) (e : Engine) (w : World) (data_path : string)
        (more : list string) (data : value) (tpl : template e)
        (rendered : string) :
  jinja2_installed w = true ->
  args w = data_path :: more ->
  load_json w data_path = Ok data ->
  Template e (concat "" (stdin w)) = Ok tpl ->
  render e tpl (main_filters h) data = Ok rendered ->
  bool_parameter h = AnyObject ->
  has_line_break (sys_version h) = false ->
  stdout_of (fst (run (MainScript.script h e w)))
  = full_output rendered (sys_version h) data_path (now w)
  /\ exit_status (snd (run (MainScript.script h e w))) = 0%Z.
Proof.
  intros Hj Ha Hd Ht Hr Hb Hv.
  rewrite (main_script_render h e w data_path more data tpl rendered
             Hj Ha Hd Ht Hr).
  assert (Hsan : sanitize_line_ends h (sys_version h) = Ok (sys_version h)).
  { destruct (String.eqb (sys_version h) "") eqn:Hempty.
    - apply String.eqb_eq in Hempty. rewrite Hempty.
      unfold sanitize_line_ends. rewrite Hb. reflexivity.
    - apply String.eqb_neq in Hempty.
      now apply sanitize_line_ends_single_line. }
  rewrite Hsan.
  cbn [bind ret lift app print run fst snd stdout_of exit_status].
  split; [|reflexivity].
  unfold full_output. flatten_append.
Qed.

Lemma main_script_complete_output_witness :
  stdout_of (fst (run (MainScript.script CPython.cpython_3_12
                         CPython.literal_engine
                         (CPython.world true ["data.json"]))))
  = full_output ("(define (problem p1)" ++ newline ++ ")")
                (sys_version CPython.cpython_3_12) "data.json"
                (now (CPython.world true ["data.json"])).
Proof.
  exact (proj1 (main_script_complete_output CPython.cpython_3_12
                  CPython.literal_engine (CPython.world true ["data.json"])
                  "data.json" [] (VDict [("x", VInt 42)])
                  ("(define (problem p1)" ++ newline ++ ")")
                  ("(define (problem p1)" ++ newline ++ ")")
                  eq_refl eq_refl eq_refl eq_refl eq_refl eq_refl eq_refl)).
Defined.

(** ** The variant script *)



(** With jinja2 imported and no argument the variant reads all of standard
    input, writes the usage line to standard error and exits with -1. *)
Theorem variant_no_arguments (h : Host) (e : Engine) (w : World) :
  jinja2_installed w = true ->
  args w = [] ->
  run (VariantScript.script h e w)
  = ([ReadStdin (stdin w);
      Stderr ("Usage: " ++ os_path_basename h (argv0 w) ++ " <data.json>")],
     SystemExit (-1)).
Proof.
  intros Hj Ha. unfold VariantScript.script, VariantScript.main.
  rewrite Hj, Ha. reflexivity.
Qed.

Lemma variant_no_arguments_witness :
  run (VariantScript.script CPython.cpython_3_11 CPython.literal_engine
         (CPython.world true []))
  = ([ReadStdin (stdin (CPython.world true []));
      Stderr "Usage: transform_jinja2.py <data.json>"],
     SystemExit (-1)).
Proof.
  exact (variant_no_arguments CPython.cpython_3_11 CPython.literal_engine
           (CPython.world true []) eq_refl eq_refl).
Defined.

(** The variant prints all or nothing: if anything reaches standard output,
    the run completes with status 0 and standard output is the render
    followed by the four trailer lines, [sys.version] as it is on the
    [Python:] line; this holds on every host. *)
Theorem variant_output_all_or_nothing (h : Host) (e : Engine) (w : World) :
  stdout_of (fst (run (VariantScript.script h e w))) <> "" ->
  snd (run (VariantScript.script h e w)) = Completed
  /\ exists data_path more data tpl rendered,
       args w = data_path :: more
       /\ load_json w data_path = Ok data
       /\ Template e (concat "" (stdin w)) = Ok tpl
       /\ render e tpl [] data = Ok rendered
       /\ stdout_of (fst (run (VariantScript.script h e w)))
          = full_output rendered (sys_version h) data_path (now w).
Proof.
  unfold VariantScript.script, VariantScript.main, full_output.
  script_cases; cbn [run fst snd stdout_of]; intros Hout;
    try (exfalso; apply Hout; reflexivity).
  split; [reflexivity|].
  do 5 eexists. repeat (split; [eassumption || reflexivity|]).
  unfold banner, newline. flatten_append.
Qed.

Lemma variant_output_all_or_nothing_witness :
  snd (run (VariantScript.script CPython.cpython_3_11 CPython.literal_engine
              (CPython.world true ["data.json"])))
  = Completed.
Proof.
  apply (variant_output_all_or_nothing CPython.cpython_3_11
           CPython.literal_engine (CPython.world true ["data.json"])).
  vm_compute. discriminate.
Defined.

(** ** The two scripts side by side *)

(** A run that stops before the render is the same in both scripts: no
    jinja2, no argument, a data file that does not load, a template that
    does not compile. *)
Theorem scripts_agree_before_render (h : Host) (e : Engine) (w : World) :
  jinja2_installed w = false
  \/ args w = []
  \/ (exists data_path more x,
        args w = data_path :: more /\ load_json w data_path = Raise x)
  \/ (exists x, Template e (concat "" (stdin w)) = Raise x) ->
  MainScript.script h e w = VariantScript.script h e w.
Proof.
  unfold MainScript.script, MainScript.main,
         VariantScript.script, VariantScript.main.
  intros [Hj | [Ha | [[p [more [x [Ha Hd]]]] | [x Ht]]]].
  - rewrite Hj. reflexivity.
  - rewrite Ha. destruct (jinja2_installed w); reflexivity.
  - rewrite Ha. destruct (jinja2_installed w); [|reflexivity].
    cbn [List.length Nat.ltb Nat.leb first_arg bind ret lift app].
    rewrite Hd. reflexivity.
  - destruct (jinja2_installed w); [|reflexivity].
    destruct (args w) as [|p more]; [reflexivity|].
    cbn [List.length Nat.ltb Nat.leb first_arg bind ret lift app].
    destruct (load_json w p); cbn [bind ret lift app]; [|reflexivity].
    rewrite Ht. reflexivity.
Qed.

Lemma scripts_agree_before_render_witness :
  MainScript.script CPython.cpython_3_11 CPython.literal_engine
                    (CPython.world true ["missing.json"])
  = VariantScript.script CPython.cpython_3_11 CPython.literal_engine
                         (CPython.world true ["missing.json"]).
Proof.
  apply (scripts_agree_before_render CPython.cpython_3_11
           CPython.literal_engine (CPython.world true ["missing.json"])).
  right. right. left.
  exists "missing.json", [], (ExternalError "FileNotFoundError").
  split; reflexivity.
Defined.

(** Where the sanitizer returns [sys.version] unchanged and the engine
    renders the same with and without the two filters in place (a template
    that does not use them), the two scripts run the same. *)
Theorem scripts_agree_without_filter_use (h : Host) (e : Engine) (w : World) :
  sanitize_line_ends h (sys_version h) = Ok (sys_version h) ->
  (forall tpl data, render e tpl (main_filters h) data = render e tpl [] data) ->
  MainScript.script h e w = VariantScript.script h e w.
Proof.
  intros Hs Hr.
  unfold MainScript.script, MainScript.main,
         VariantScript.script, VariantScript.main.
  fold (main_filters h).
  destruct (jinja2_installed w); [|reflexivity].
  destruct (args w) as [|p more]; [reflexivity|].
  cbn [List.length Nat.ltb Nat.leb first_arg bind ret lift app].
  destruct (load_json w p) as [data|x]; cbn [bind ret lift app]; [|reflexivity].
  destruct (Template e (concat "" (stdin w))) as [tpl|x];
    cbn [bind ret lift app]; [|reflexivity].
  rewrite Hr, Hs.
  destruct (render e tpl [] data); reflexivity.
Qed.

Lemma scripts_agree_without_filter_use_witness :
  MainScript.script CPython.cpython_3_12 CPython.literal_engine
                    (CPython.world true ["data.json"])
  = VariantScript.script CPython.cpython_3_12 CPython.literal_engine
                         (CPython.world true ["data.json"]).
Proof.
  exact (scripts_agree_without_filter_use CPython.cpython_3_12
           CPython.literal_engine (CPython.world true ["data.json"])
           eq_refl (fun _ _ => eq_refl)).
Defined.
